(** * Package [telemetry]: OpenTelemetry SDK setup glue

    A shallow embedding of [otel_helper.go] and of the stdout / gRPC setup
    files.  The package is a linear sequence of calls into the
    OpenTelemetry, gRPC and configuration libraries, so the model has three
    layers:

    - the values the code handles (errors, function values, the handles the
      libraries give back);
    - a small monad [M] for Go statements: a log of the library calls made so
      far, and a result that is either a value or a run-time panic;
    - a second monad [Body] for a function with named results and [defer]
      statements, and [run_function], which runs the deferred calls in LIFO
      order when the body is left.

    What the libraries answer is not decided by this package; it is the
    record [SDK], a variable of the development. *)

From Stdlib Require Import String List Bool.
From ExtLib Require Import Structures.Monad.
Import ListNotations.
Import MonadNotation.
Local Open Scope string_scope.
Local Open Scope list_scope.
Local Open Scope monad_scope.

Set Implicit Arguments.

(** ** Go values *)

(** An [error] that is not nil.  [Errorf_w] is [fmt.Errorf] with one [%w]
    verb, [joinError] is what [errors.Join] builds. *)
#[warnings="-register-all"]
Inductive error_value : Type :=
| LibError (msg : string)
| Errorf_w (format : string) (wrapped : error_value)
| joinError (errs : list error_value).

(** The interface type [error]: [None] is nil. *)
Definition error : Type := option error_value.

Definition is_nil {A : Type} (v : option A) : bool :=
  match v with None => true | Some _ => false end.

(** [errors.Join]: nil values are discarded, and the result is nil when
    every value is nil. *)
Fixpoint non_nil (errs : list error) : list error_value :=
  match errs with
  | [] => []
  | None :: rest => non_nil rest
  | Some e :: rest => e :: non_nil rest
  end.

Definition errors_Join (errs : list error) : error :=
  match non_nil errs with
  | [] => None
  | e :: es => Some (joinError (e :: es))
  end.

(** [fmt.Errorf(format, err)] with [err] non-nil. *)
Definition fmt_Errorf (format : string) (err : error_value) : error :=
  Some (Errorf_w format err).

(** [context.Context] is opaque to this package: it is only passed on. *)
Inductive Context : Type := mkContext (id : nat).

(** [config.Config] comes from another module; the package uses its [Get]
    method only. *)
Record Config : Type := mkConfig { Get : string -> string }.

(** ** Library handles *)

Inductive TransportCredentials : Type := insecure_NewCredentials.

Inductive DialOption : Type :=
| grpc_WithTransportCredentials (creds : TransportCredentials).

Record ClientConn : Type :=
  mkClientConn { conn_target : string; conn_opts : list DialOption }.

Inductive KeyValue : Type := attribute_String (key value : string).

Record Resource : Type := mkResource { res_attributes : list KeyValue }.

#[warnings="-register-all"]
Inductive Propagator : Type :=
| propagation_TraceContext
| propagation_Baggage
| propagation_Composite (ps : list Propagator).

(** Exporters.  The gRPC exporters take the connection, which may be nil. *)
Inductive SpanExporter : Type :=
| otlptracegrpc_exporter (conn : option ClientConn)
| stdouttrace_exporter (pretty_print : bool).

Inductive MetricExporter : Type :=
| otlpmetricgrpc_exporter (conn : option ClientConn)
| stdoutmetric_exporter.

(** Providers, with the options the code passes: a batch timeout or a reader
    interval in seconds ([None]: the library's default). *)
Record TracerProvider : Type := mkTracerProvider {
  tp_exporter : SpanExporter;
  tp_batch_timeout : option nat;
  tp_always_sample : bool;
  tp_resource : Resource
}.

Record MeterProvider : Type := mkMeterProvider {
  mp_exporter : MetricExporter;
  mp_interval : option nat;
  mp_resource : Resource
}.

(** Values of type [func(context.Context) error] that the package creates:
    the two method values.  The Go type is nilable, so variables of that type
    hold an [option Func]. *)
Inductive Func : Type :=
| TracerProvider_Shutdown (tp : TracerProvider)
| MeterProvider_Shutdown (mp : MeterProvider).

(** ** Library calls and their answers *)

(** One entry of the log per call into a library that acts on the outside
    world or on the process-wide registries. *)
Inductive event : Type :=
| Call_grpc_NewClient (target : string) (opts : list DialOption)
| Call_resource_New (ctx : Context) (attrs : list KeyValue)
| Call_SetTextMapPropagator (p : Propagator)
| Call_otlptracegrpc_New (ctx : Context) (conn : option ClientConn)
| Call_otlpmetricgrpc_New (ctx : Context) (conn : option ClientConn)
| Call_stdouttrace_New (pretty_print : bool)
| Call_stdoutmetric_New
| Call_SetTracerProvider (tp : TracerProvider)
| Call_SetMeterProvider (mp : MeterProvider)
| Call_Shutdown (f : Func) (ctx : Context).

(** The error each fallible library call answers (nil: success).  Library
    calls are taken to return; they do not panic. *)
Record SDK : Type := mkSDK {
  grpc_NewClient : string -> list DialOption -> error;
  resource_New : Context -> list KeyValue -> error;
  otlptracegrpc_New : Context -> option ClientConn -> error;
  otlpmetricgrpc_New : Context -> option ClientConn -> error;
  stdouttrace_New : bool -> error;
  stdoutmetric_New : error;
  Shutdown : Func -> Context -> error
}.

(** ** Statements: log and panics *)

Inductive panic_value : Type :=
| nil_func_call.   (* invalid memory address or nil pointer dereference *)

Inductive res (A : Type) : Type :=
| Val (a : A)
| Panicking (p : panic_value).
Arguments Panicking {A} p.

(** The log, newest call first; [history] reads it in the order of the
    calls. *)
Definition log : Type := list event.
Definition history (w : log) : list event := rev w.

Definition M (A : Type) : Type := log -> res A * log.

Definition M_ret {A : Type} (a : A) : M A := fun w => (Val a, w).

Definition M_bind {A B : Type} (m : M A) (k : A -> M B) : M B :=
  fun w =>
    match m w with
    | (Val a, w') => k a w'
    | (Panicking p, w') => (Panicking p, w')
    end.

#[export] Instance Monad_M : Monad M :=
  {| ret := @M_ret; bind := @M_bind |}.

Definition emit (e : event) : M unit := fun w => (Val tt, e :: w).

Definition panic {A : Type} (p : panic_value) : M A :=
  fun w => (Panicking p, w).

(** ** Function bodies: named results and deferred calls *)

(** The frame of a set-up function: its two named results and the stack of
    deferred closures, last deferred first.  The closures of this package
    read local variables only (the [err] inside them is a new variable of
    the [if] statement), so a deferred call is a statement of [M]. *)
Record frame : Type := mkFrame {
  v_shutdown : option Func;
  v_err : error;
  deferred : list (M unit)
}.

Inductive signal (A : Type) : Type :=
| Next (a : A)
| Returned
| Panicked (p : panic_value).
Arguments Returned {A}.
Arguments Panicked {A} p.

Definition Body (A : Type) : Type := frame -> log -> signal A * frame * log.

Definition Body_ret {A : Type} (a : A) : Body A := fun fr w => (Next a, fr, w).

Definition Body_bind {A B : Type} (m : Body A) (k : A -> Body B) : Body B :=
  fun fr w =>
    match m fr w with
    | (Next a, fr', w') => k a fr' w'
    | (Returned, fr', w') => (Returned, fr', w')
    | (Panicked p, fr', w') => (Panicked p, fr', w')
    end.

#[export] Instance Monad_Body : Monad Body :=
  {| ret := @Body_ret; bind := @Body_bind |}.

(** A statement inside a function body. *)
Definition stmt {A : Type} (m : M A) : Body A :=
  fun fr w =>
    match m w with
    | (Val a, w') => (Next a, fr, w')
    | (Panicking p, w') => (Panicked p, fr, w')
    end.

(** [x, err := f()] at the top level of a function whose result is named
    [err]: [x] is new, [err] is the named result. *)
Definition assign_err {A : Type} (m : M (A * error)) : Body A :=
  fun fr w =>
    match m w with
    | (Val (a, e), w') =>
        (Next a, mkFrame (v_shutdown fr) e (deferred fr), w')
    | (Panicking p, w') => (Panicked p, fr, w')
    end.

Definition read_err : Body error := fun fr w => (Next (v_err fr), fr, w).

Definition defer (d : M unit) : Body unit :=
  fun fr w => (Next tt, mkFrame (v_shutdown fr) (v_err fr) (d :: deferred fr), w).

(** The naked [return]. *)
Definition return_ {A : Type} : Body A := fun fr w => (Returned, fr, w).

(** Deferred calls run last deferred first.  A call that panics does not
    stop the ones below it; the panic that leaves the function is the most
    recent one. *)
Fixpoint run_deferred (ds : list (M unit)) (p : option panic_value) (w : log)
  : option panic_value * log :=
  match ds with
  | [] => (p, w)
  | d :: rest =>
      match d w with
      | (Val _, w') => run_deferred rest p w'
      | (Panicking q, w') => run_deferred rest (Some q) w'
      end
  end.

(** What a call of a set-up function leaves: the named results when the
    function is left, the panic that leaves it if there is one (the caller
    receives the results only when there is none), and the log. *)
Record outcome : Type := mkOutcome {
  out_shutdown : option Func;
  out_err : error;
  out_panic : option panic_value;
  out_log : log
}.

Definition run_function (body : Body unit) (w : log) : outcome :=
  match body (mkFrame None None []) w with
  | (sig, fr, w') =>
      let p := match sig with Panicked q => Some q | _ => None end in
      let '(p', w'') := run_deferred (deferred fr) p w' in
      mkOutcome (v_shutdown fr) (v_err fr) p' w''
  end.

(** ** otel_helper.go *)

Section Telemetry.

Variable sdk : SDK.

(** Calling a value of type [func(context.Context) error]. *)
Definition call (fn : option Func) (ctx : Context) : M error :=
  match fn with
  | None => panic nil_func_call
  | Some f => emit (Call_Shutdown f ctx) ;; ret (Shutdown sdk f ctx)
  end.

(** [make([]func(context.Context) error, n)]: [n] nil functions. *)
Definition make_funcs (n : nat) : list (option Func) := repeat None n.

(** The [for _, fn := range shutdownFuncs] loop of [shutdown]. *)
Fixpoint range_join (fns : list (option Func)) (ctx : Context) (err : error)
  : M error :=
  match fns with
  | [] => ret err
  | fn :: rest =>
      r <- call fn ctx ;;
      range_join rest ctx (errors_Join [err; r])
  end.

(** The slice that [shutdown] ranges over. *)
Definition shutdownFuncs : list (option Func) := make_funcs 0.

Definition shutdown (ctx : Context) : M error :=
  let err : error := None in
  err <- range_join shutdownFuncs ctx err ;;
  ret err.

Definition handleErr (err : error) (ctx : Context) : M unit :=
  if negb (is_nil err) then
    r <- shutdown ctx ;;
    let err := errors_Join [err; r] in
    let _ := err in
    ret tt
  else ret tt.

(** ** The gRPC set-up *)

(** [initConn]: the client for the collector. *)
Definition initConn : M (option ClientConn * error) :=
  let target := "localhost:4317" in
  let opts := [grpc_WithTransportCredentials insecure_NewCredentials] in
  emit (Call_grpc_NewClient target opts) ;;
  match grpc_NewClient sdk target opts with
  | Some err =>
      ret (None,
           fmt_Errorf "failed to create gRPC connection to collector: %w" err)
  | None => ret (Some (mkClientConn target opts), None)
  end.

(** [resource.New(ctx, resource.WithAttributes(attribute.String(
    "SERVICE_NAME", configuration.Get("APP_NAME"))))], the first statement
    about the resource in both set-up functions.  No resource is returned
    with an error. *)
Definition new_resource (ctx : Context) (configuration : Config)
  : M (option Resource * error) :=
  let attrs := [attribute_String "SERVICE_NAME" (Get configuration "APP_NAME")] in
  emit (Call_resource_New ctx attrs) ;;
  match resource_New sdk ctx attrs with
  | Some err => ret (None, Some err)
  | None => ret (Some (mkResource attrs), None)
  end.

Definition newPropagator : Propagator :=
  propagation_Composite [propagation_TraceContext; propagation_Baggage].

(** [trace.WithResource(res)] and [metric.WithResource(res)] read through
    the pointer [res]; the set-up functions reach them with a resource
    only. *)
Definition deref_resource (res : option Resource) : Resource :=
  match res with Some r => r | None => mkResource [] end.

Definition initTracerProvider (ctx : Context) (res : option Resource)
    (conn : option ClientConn) : M (option Func * error) :=
  emit (Call_otlptracegrpc_New ctx conn) ;;
  match otlptracegrpc_New sdk ctx conn with
  | Some err => ret (None, fmt_Errorf "failed to create trace exporter: %w" err)
  | None =>
      let traceExporter := otlptracegrpc_exporter conn in
      let tracerProvider :=
        mkTracerProvider traceExporter None true (deref_resource res) in
      emit (Call_SetTracerProvider tracerProvider) ;;
      emit (Call_SetTextMapPropagator propagation_TraceContext) ;;
      ret (Some (TracerProvider_Shutdown tracerProvider), None)
  end.

Definition initMeterProvider (ctx : Context) (res : option Resource)
    (conn : option ClientConn) : M (option Func * error) :=
  emit (Call_otlpmetricgrpc_New ctx conn) ;;
  match otlpmetricgrpc_New sdk ctx conn with
  | Some err =>
      ret (None, fmt_Errorf "failed to create metrics exporter: %w" err)
  | None =>
      let metricExporter := otlpmetricgrpc_exporter conn in
      let meterProvider :=
        mkMeterProvider metricExporter None (deref_resource res) in
      emit (Call_SetMeterProvider meterProvider) ;;
      ret (Some (MeterProvider_Shutdown meterProvider), None)
  end.

(** The closure of both [defer] statements:
    [func() { if err := f(ctx); err != nil { handleErr(err, ctx) } }]. *)
Definition shutdown_closure (f : option Func) (ctx : Context) : M unit :=
  err <- call f ctx ;;
  if negb (is_nil err) then handleErr err ctx else ret tt.

(** [if err != nil { handleErr(err, ctx) }] on the named result. *)
Definition handle_named_err (ctx : Context) : Body error :=
  err <- read_err ;;
  (if negb (is_nil err) then stmt (handleErr err ctx) else ret tt) ;;
  ret err.

Definition SetupOTelSDKGrpc_body (ctx : Context) (configuration : Config)
  : Body unit :=
  conn <- assign_err initConn ;;
  _ <- handle_named_err ctx ;;
  res <- assign_err (new_resource ctx configuration) ;;
  err <- handle_named_err ctx ;;
  (if negb (is_nil err) then return_ else ret tt) ;;
  let prop := newPropagator in
  stmt (emit (Call_SetTextMapPropagator prop)) ;;
  shutdownTracerProvider <- assign_err (initTracerProvider ctx res conn) ;;
  _ <- handle_named_err ctx ;;
  defer (shutdown_closure shutdownTracerProvider ctx) ;;
  shutdownMeterProvider <- assign_err (initMeterProvider ctx res conn) ;;
  _ <- handle_named_err ctx ;;
  defer (shutdown_closure shutdownMeterProvider ctx) ;;
  return_.

Definition SetupOTelSDKGrpc (ctx : Context) (configuration : Config)
  : log -> outcome :=
  run_function (SetupOTelSDKGrpc_body ctx configuration).

(** ** The stdout set-up *)

Definition newTraceProvider (res : option Resource)
  : M (option TracerProvider * error) :=
  emit (Call_stdouttrace_New true) ;;
  match stdouttrace_New sdk true with
  | Some err => ret (None, Some err)
  | None =>
      let traceExporter := stdouttrace_exporter true in
      ret (Some (mkTracerProvider traceExporter (Some 1) false
                   (deref_resource res)), None)
  end.

Definition newMeterProvider (res : option Resource)
  : M (option MeterProvider * error) :=
  emit Call_stdoutmetric_New ;;
  match stdoutmetric_New sdk with
  | Some err => ret (None, Some err)
  | None =>
      let metricExporter := stdoutmetric_exporter in
      ret (Some (mkMeterProvider metricExporter (Some 3)
                   (deref_resource res)), None)
  end.

(** The method value [p.Shutdown] of a provider pointer; the set-up reaches
    it with a provider only. *)
Definition method {P : Type} (m : P -> Func) (p : option P) : option Func :=
  match p with Some x => Some (m x) | None => None end.

(** [otel.SetTracerProvider(p)] and [otel.SetMeterProvider(p)]. *)
Definition set_global {P : Type} (ev : P -> event) (p : option P) : M unit :=
  match p with Some x => emit (ev x) | None => ret tt end.

Definition SetupOTelSDKStdout_body (ctx : Context) (configuration : Config)
  : Body unit :=
  res <- assign_err (new_resource ctx configuration) ;;
  err <- handle_named_err ctx ;;
  (if negb (is_nil err) then return_ else ret tt) ;;
  let prop := newPropagator in
  stmt (emit (Call_SetTextMapPropagator prop)) ;;
  tracerProvider <- assign_err (newTraceProvider res) ;;
  err <- handle_named_err ctx ;;
  (if negb (is_nil err) then return_ else ret tt) ;;
  defer (shutdown_closure (method TracerProvider_Shutdown tracerProvider) ctx) ;;
  stmt (set_global Call_SetTracerProvider tracerProvider) ;;
  meterProvider <- assign_err (newMeterProvider res) ;;
  err <- handle_named_err ctx ;;
  (if negb (is_nil err) then return_ else ret tt) ;;
  defer (shutdown_closure (method MeterProvider_Shutdown meterProvider) ctx) ;;
  stmt (set_global Call_SetMeterProvider meterProvider) ;;
  return_.

Definition SetupOTelSDKStdout (ctx : Context) (configuration : Config)
  : log -> outcome :=
  run_function (SetupOTelSDKStdout_body ctx configuration).

End Telemetry.

(** ** Observing a run *)

(** The two set-up functions, by exporter. *)
Inductive exporter : Type := Stdout | Grpc.

Definition SetupOTelSDK (x : exporter) (sdk : SDK) (ctx : Context)
    (configuration : Config) : log -> outcome :=
  match x with
  | Stdout => SetupOTelSDKStdout sdk ctx configuration
  | Grpc => SetupOTelSDKGrpc sdk ctx configuration
  end.

(** The calls of a set-up function made in a fresh process, in order. *)
Definition calls (x : exporter) (sdk : SDK) (ctx : Context)
    (configuration : Config) : list event :=
  history (out_log (SetupOTelSDK x sdk ctx configuration [])).

Definition is_shutdown_call (e : event) : bool :=
  match e with Call_Shutdown _ _ => true | _ => false end.

(** The targets and options of the gRPC clients created. *)
Fixpoint grpc_clients (h : list event) : list (string * list DialOption) :=
  match h with
  | [] => []
  | Call_grpc_NewClient target opts :: rest => (target, opts) :: grpc_clients rest
  | _ :: rest => grpc_clients rest
  end.

(** The attribute lists of the resources built. *)
Fixpoint resources_built (h : list event) : list (list KeyValue) :=
  match h with
  | [] => []
  | Call_resource_New _ attrs :: rest => attrs :: resources_built rest
  | _ :: rest => resources_built rest
  end.

(** The propagators made the process-wide one, in order. *)
Fixpoint propagators_set (h : list event) : list Propagator :=
  match h with
  | [] => []
  | Call_SetTextMapPropagator p :: rest => p :: propagators_set rest
  | _ :: rest => propagators_set rest
  end.

(** The resources of the providers registered process-wide. *)
Fixpoint registered_resources (h : list event) : list Resource :=
  match h with
  | [] => []
  | Call_SetTracerProvider tp :: rest =>
      tp_resource tp :: registered_resources rest
  | Call_SetMeterProvider mp :: rest =>
      mp_resource mp :: registered_resources rest
  | _ :: rest => registered_resources rest
  end.

(** The registration of the provider that a shutdown method belongs to. *)
Definition registration_of (f : Func) : event :=
  match f with
  | TracerProvider_Shutdown tp => Call_SetTracerProvider tp
  | MeterProvider_Shutdown mp => Call_SetMeterProvider mp
  end.

(** The connection that [initConn] hands to [SetupOTelSDKGrpc]: nil when
    the client could not be created. *)
Definition conn_of (sdk : SDK) : option ClientConn :=
  let target := "localhost:4317" in
  let opts := [grpc_WithTransportCredentials insecure_NewCredentials] in
  match grpc_NewClient sdk target opts with
  | None => Some (mkClientConn target opts)
  | Some _ => None
  end.

(** The resource attributes of both set-up functions. *)
Definition service_attributes (configuration : Config) : list KeyValue :=
  [attribute_String "SERVICE_NAME" (Get configuration "APP_NAME")].

(** The same libraries, with other answers of the [Shutdown] methods. *)
Definition with_Shutdown (sdk : SDK) (answers : Func -> Context -> error)
  : SDK :=
  {| grpc_NewClient := grpc_NewClient sdk;
     resource_New := resource_New sdk;
     otlptracegrpc_New := otlptracegrpc_New sdk;
     otlpmetricgrpc_New := otlpmetricgrpc_New sdk;
     stdouttrace_New := stdouttrace_New sdk;
     stdoutmetric_New := stdoutmetric_New sdk;
     Shutdown := answers |}.

(** A constructor's result: a handle and no error, or an error and no
    handle. *)
Definition handle_xor_error {A : Type} (r : res (option A * error)) : bool :=
  match r with
  | Val (h, e) => xorb (is_nil h) (is_nil e)
  | Panicking _ => false
  end.

(** ** Sample inputs *)

Definition background : Context := mkContext 0.

Definition app_config : Config :=
  mkConfig (fun key => if String.eqb key "APP_NAME" then "billing" else "").

(** Every library call succeeds. *)
Definition all_succeed : SDK :=
  {| grpc_NewClient := fun _ _ => None;
     resource_New := fun _ _ => None;
     otlptracegrpc_New := fun _ _ => None;
     otlpmetricgrpc_New := fun _ _ => None;
     stdouttrace_New := fun _ => None;
     stdoutmetric_New := None;
     Shutdown := fun _ _ => None |}.

(** The OTLP trace exporter cannot be created. *)
Definition trace_exporter_fails : SDK :=
  {| grpc_NewClient := fun _ _ => None;
     resource_New := fun _ _ => None;
     otlptracegrpc_New := fun _ _ => Some (LibError "trace exporter");
     otlpmetricgrpc_New := fun _ _ => None;
     stdouttrace_New := fun _ => None;
     stdoutmetric_New := None;
     Shutdown := fun _ _ => None |}.

(** The OTLP metric exporter cannot be created. *)
Definition metric_exporter_fails : SDK :=
  {| grpc_NewClient := fun _ _ => None;
     resource_New := fun _ _ => None;
     otlptracegrpc_New := fun _ _ => None;
     otlpmetricgrpc_New := fun _ _ => Some (LibError "metric exporter");
     stdouttrace_New := fun _ => None;
     stdoutmetric_New := None;
     Shutdown := fun _ _ => None |}.

(** Both providers are built, and both fail to shut down. *)
Definition shutdowns_fail : SDK :=
  {| grpc_NewClient := fun _ _ => None;
     resource_New := fun _ _ => None;
     otlptracegrpc_New := fun _ _ => None;
     otlpmetricgrpc_New := fun _ _ => None;
     stdouttrace_New := fun _ => None;
     stdoutmetric_New := None;
     Shutdown := fun f _ =>
       match f with
       | TracerProvider_Shutdown _ => Some (LibError "tracer flush")
       | MeterProvider_Shutdown _ => Some (LibError "meter flush")
       end |}.

Definition billing_resource : Resource :=
  mkResource [attribute_String "SERVICE_NAME" "billing"].

Definition local_conn : ClientConn :=
  mkClientConn "localhost:4317"
    [grpc_WithTransportCredentials insecure_NewCredentials].

Definition stdout_tracer : TracerProvider :=
  mkTracerProvider (stdouttrace_exporter true) (Some 1) false billing_resource.

Definition stdout_meter : MeterProvider :=
  mkMeterProvider stdoutmetric_exporter (Some 3) billing_resource.

Definition grpc_tracer : TracerProvider :=
  mkTracerProvider (otlptracegrpc_exporter (Some local_conn)) None true
    billing_resource.

Definition grpc_meter : MeterProvider :=
  mkMeterProvider (otlpmetricgrpc_exporter (Some local_conn)) None
    billing_resource.

(** The resource cannot be built. *)
Definition resource_fails : SDK :=
  {| grpc_NewClient := fun _ _ => None;
     resource_New := fun _ _ => Some (LibError "resource");
     otlptracegrpc_New := fun _ _ => None;
     otlpmetricgrpc_New := fun _ _ => None;
     stdouttrace_New := fun _ => None;
     stdoutmetric_New := None;
     Shutdown := fun _ _ => None |}.

(** The stdout trace exporter cannot be created. *)
Definition stdout_trace_exporter_fails : SDK :=
  {| grpc_NewClient := fun _ _ => None;
     resource_New := fun _ _ => None;
     otlptracegrpc_New := fun _ _ => None;
     otlpmetricgrpc_New := fun _ _ => None;
     stdouttrace_New := fun _ => Some (LibError "stdout trace exporter");
     stdoutmetric_New := None;
     Shutdown := fun _ _ => None |}.

(** The stdout metric exporter cannot be created. *)
Definition stdout_metric_exporter_fails : SDK :=
  {| grpc_NewClient := fun _ _ => None;
     resource_New := fun _ _ => None;
     otlptracegrpc_New := fun _ _ => None;
     otlpmetricgrpc_New := fun _ _ => None;
     stdouttrace_New := fun _ => None;
     stdoutmetric_New := Some (LibError "stdout metric exporter");
     Shutdown := fun _ _ => None |}.

(** The gRPC client cannot be created. *)
Definition connection_fails : SDK :=
  {| grpc_NewClient := fun _ _ => Some (LibError "dial");
     resource_New := fun _ _ => None;
     otlptracegrpc_New := fun _ _ => None;
     otlpmetricgrpc_New := fun _ _ => None;
     stdouttrace_New := fun _ => None;
     stdoutmetric_New := None;
     Shutdown := fun _ _ => None |}.

(** ** Tactics *)

(** Unfolds a set-up function down to the answers of the libraries. *)
Ltac unfold_setup :=
  unfold SetupOTelSDKGrpc, SetupOTelSDKStdout, run_function,
    SetupOTelSDKGrpc_body, SetupOTelSDKStdout_body, handle_named_err,
    initConn, new_resource, initTracerProvider, initMeterProvider,
    newTraceProvider, newMeterProvider, shutdown_closure, call;
  cbn.

(** Splits on the next answer of a library that the goal waits for. *)
Ltac library_answer :=
  match goal with
  | |- context [match ?a with Some _ => _ | None => _ end] =>
      destruct a eqn:?; cbn
  | |- context [is_nil ?a] => destruct a eqn:?; cbn
  end.

Ltac run_setup := unfold_setup; repeat library_answer.

(** Closes a goal whose hypotheses place an event in a list it is not in. *)
Ltac absurd_membership :=
  repeat match goal with
         | H : _ \/ _ |- _ => destruct H
         | H : False |- _ => destruct H
         | H : _ = _ |- _ => discriminate H
         end.

(** ** The shutdown helper *)

(** C4. The slice that [shutdown] ranges over is empty, so for every context
    [shutdown ctx] calls no callback (the log is unchanged) and returns
    nil. *)
Theorem shutdown_ranges_over_nothing :
  shutdownFuncs = [] /\
  forall (sdk : SDK) (ctx : Context) (w : log),
    shutdown sdk ctx w = (Val None, w).
Proof.
  split; [reflexivity | intros sdk ctx w; reflexivity].
Qed.

(** C10. [handleErr] has no effect its caller can see: whatever the error
    and the context, it returns nothing, does not panic and leaves the log
    as it was. *)
Theorem handleErr_no_effect :
  forall (sdk : SDK) (err : error) (ctx : Context) (w : log),
    handleErr sdk err ctx w = (Val tt, w).
Proof.
  intros sdk [e|] ctx w; reflexivity.
Qed.

(** ** What both set-up functions do *)

(** C9. Whatever the libraries answer, the named result [shutdown] of both
    set-up functions is nil when the function is left, so calling what the
    function returned is calling a nil function, which panics. *)
Theorem setup_shutdown_result_is_nil :
  forall (x : exporter) (sdk : SDK) (ctx : Context) (configuration : Config)
         (w : log),
    out_shutdown (SetupOTelSDK x sdk ctx configuration w) = None /\
    forall (ctx' : Context) (w' : log),
      call sdk (out_shutdown (SetupOTelSDK x sdk ctx configuration w)) ctx' w'
      = (Panicking nil_func_call, w').
Proof.
  intros x sdk ctx configuration w.
  assert (Hnil : out_shutdown (SetupOTelSDK x sdk ctx configuration w) = None).
  { destruct x; cbn [SetupOTelSDK]; run_setup; reflexivity. }
  split; [exact Hnil |].
  intros ctx' w'. rewrite Hnil. reflexivity.
Qed.

(** C7. Every call of [SetupOTelSDKGrpc] creates one gRPC client, first of
    all, for the target "localhost:4317" with insecure transport credentials
    as its only option. *)
Theorem grpc_client_is_local_and_insecure :
  forall (sdk : SDK) (ctx : Context) (configuration : Config),
    hd_error (calls Grpc sdk ctx configuration)
    = Some (Call_grpc_NewClient "localhost:4317"
              [grpc_WithTransportCredentials insecure_NewCredentials]) /\
    grpc_clients (calls Grpc sdk ctx configuration)
    = [("localhost:4317",
        [grpc_WithTransportCredentials insecure_NewCredentials])].
Proof.
  intros sdk ctx configuration.
  unfold calls, history; cbn [SetupOTelSDK].
  run_setup; split; reflexivity.
Qed.

(** C8. On both paths and for every configuration, one resource is built,
    from one attribute: the string pair of key "SERVICE_NAME" and of the
    value the configuration gives for "APP_NAME". *)
Theorem resource_has_the_service_name_only :
  forall (x : exporter) (sdk : SDK) (ctx : Context) (configuration : Config),
    resources_built (calls x sdk ctx configuration)
    = [[attribute_String "SERVICE_NAME" (Get configuration "APP_NAME")]].
Proof.
  intros x sdk ctx configuration.
  unfold calls, history.
  destruct x; cbn [SetupOTelSDK]; run_setup; reflexivity.
Qed.

(** ** Order of the deferred shutdown calls *)

(** Both deferred closures come through [handleErr] without a trace, so a
    deferred shutdown call is its library call and nothing more. *)
Lemma shutdown_closure_of_func :
  forall (sdk : SDK) (f : Func) (ctx : Context) (w : log),
    shutdown_closure sdk (Some f) ctx w = (Val tt, Call_Shutdown f ctx :: w).
Proof.
  intros sdk f ctx w.
  unfold shutdown_closure, call; cbn.
  destruct (Shutdown sdk f ctx); reflexivity.
Qed.

Lemma shutdown_closure_of_nil :
  forall (sdk : SDK) (ctx : Context) (w : log),
    shutdown_closure sdk None ctx w = (Panicking nil_func_call, w).
Proof. reflexivity. Qed.

(** C5. In a run of either set-up function that registers a tracer provider
    and a meter provider, the run ends with the two deferred shutdown calls,
    the meter provider's (deferred second) before the tracer provider's
    (deferred first), and no shutdown call is made before them. *)
Theorem providers_shut_down_in_reverse_order :
  forall (x : exporter) (sdk : SDK) (ctx : Context) (configuration : Config)
         (tp : TracerProvider) (mp : MeterProvider),
    In (Call_SetTracerProvider tp) (calls x sdk ctx configuration) ->
    In (Call_SetMeterProvider mp) (calls x sdk ctx configuration) ->
    exists before : list event,
      calls x sdk ctx configuration
      = before ++ [Call_Shutdown (MeterProvider_Shutdown mp) ctx;
                   Call_Shutdown (TracerProvider_Shutdown tp) ctx] /\
      existsb is_shutdown_call before = false.
Proof.
  intros x sdk ctx configuration tp mp.
  unfold calls, history.
  destruct x; cbn [SetupOTelSDK]; run_setup; intros Ht Hm;
    try solve [absurd_membership].
  all: repeat match goal with
              | H : _ \/ _ |- _ => destruct H; try discriminate
              | H : False |- _ => destruct H
              end.
  all: repeat match goal with
              | H : Call_SetTracerProvider _ = Call_SetTracerProvider _ |- _ =>
                  injection H as <-
              | H : Call_SetMeterProvider _ = Call_SetMeterProvider _ |- _ =>
                  injection H as <-
              end.
  all: match goal with
       | |- exists before, ?h = before ++ _ /\ _ =>
           exists (removelast (removelast h))
       end; split; reflexivity.
Qed.

Lemma providers_shut_down_in_reverse_order_witness :
  In (Call_SetTracerProvider grpc_tracer)
     (calls Grpc all_succeed background app_config) /\
  In (Call_SetMeterProvider grpc_meter)
     (calls Grpc all_succeed background app_config) /\
  exists before : list event,
    calls Grpc all_succeed background app_config
    = before ++ [Call_Shutdown (MeterProvider_Shutdown grpc_meter) background;
                 Call_Shutdown (TracerProvider_Shutdown grpc_tracer) background] /\
    existsb is_shutdown_call before = false.
Proof.
  assert (Ht : In (Call_SetTracerProvider grpc_tracer)
                  (calls Grpc all_succeed background app_config)).
  { vm_compute. tauto. }
  assert (Hm : In (Call_SetMeterProvider grpc_meter)
                  (calls Grpc all_succeed background app_config)).
  { vm_compute. tauto. }
  split; [exact Ht | split; [exact Hm |]].
  exact (providers_shut_down_in_reverse_order Grpc all_succeed background
           app_config grpc_tracer grpc_meter Ht Hm).
Defined.

(** ** Where the code leaves its documented behaviour *)

(** [errors.Join] of two errors is nil only when both are. *)
Lemma errors_Join_pair_nil :
  forall a b : error, is_nil (errors_Join [a; b]) = is_nil a && is_nil b.
Proof. intros [a|] [b|]; reflexivity. Qed.

(** X15. The loop of [shutdown], had it functions to range over: it calls
    each of them in the order of the slice, whatever the ones before
    answered, and its result is nil only when the error it started from and
    every answer are nil. *)
Lemma range_join_calls_every_func :
  forall (sdk : SDK) (fs : list Func) (ctx : Context) (err : error) (w : log),
    exists r : error,
      range_join sdk (map Some fs) ctx err w
      = (Val r, rev (map (fun f => Call_Shutdown f ctx) fs) ++ w) /\
      is_nil r
      = is_nil err && forallb (fun f => is_nil (Shutdown sdk f ctx)) fs.
Proof.
  intros sdk fs ctx.
  induction fs as [| f fs IH]; intros err w.
  - exists err. split; [reflexivity |].
    cbn. now rewrite andb_true_r.
  - destruct (IH (errors_Join [err; Shutdown sdk f ctx])
                 (Call_Shutdown f ctx :: w)) as [r [Hrun Hnil]].
    exists r. split.
    + cbn [map rev]. rewrite <- app_assoc. exact Hrun.
    + rewrite Hnil, errors_Join_pair_nil. cbn [forallb].
      now rewrite andb_assoc.
Qed.

(** X11. The stdout set-up never panics, whatever the libraries answer. *)
Lemma stdout_setup_does_not_panic :
  forall (sdk : SDK) (ctx : Context) (configuration : Config) (w : log),
    out_panic (SetupOTelSDKStdout sdk ctx configuration w) = None.
Proof.
  intros sdk ctx configuration w. run_setup; reflexivity.
Qed.

(** X12. When the resource is built and the stdout trace exporter cannot
    be created, the stdout set-up returns that error after three calls: no
    provider is built or registered, and no shutdown call is made. *)
Lemma stdout_setup_stops_at_trace_exporter_error :
  forall (sdk : SDK) (ctx : Context) (configuration : Config)
         (e : error_value),
    resource_New sdk ctx
      [attribute_String "SERVICE_NAME" (Get configuration "APP_NAME")] = None ->
    stdouttrace_New sdk true = Some e ->
    SetupOTelSDKStdout sdk ctx configuration []
    = mkOutcome None (Some e) None
        [Call_stdouttrace_New true;
         Call_SetTextMapPropagator newPropagator;
         Call_resource_New ctx
           [attribute_String "SERVICE_NAME" (Get configuration "APP_NAME")]].
Proof.
  intros sdk ctx configuration e Hres Htrace.
  unfold_setup. rewrite Hres. cbn. rewrite Htrace. reflexivity.
Qed.

(** X13. When the stdout metric exporter cannot be created after the
    tracer provider was registered, the stdout set-up returns that error
    without a panic, registers no meter provider, and its last call shuts
    the tracer provider down. *)
Lemma stdout_setup_stops_at_metric_exporter_error :
  forall (sdk : SDK) (ctx : Context) (configuration : Config)
         (e : error_value),
    resource_New sdk ctx
      [attribute_String "SERVICE_NAME" (Get configuration "APP_NAME")] = None ->
    stdouttrace_New sdk true = None ->
    stdoutmetric_New sdk = Some e ->
    let o := SetupOTelSDKStdout sdk ctx configuration [] in
    out_err o = Some e /\
    out_panic o = None /\
    resources_built (history (out_log o))
    = [[attribute_String "SERVICE_NAME" (Get configuration "APP_NAME")]] /\
    hd_error (out_log o)
    = Some (Call_Shutdown
              (TracerProvider_Shutdown
                 (mkTracerProvider (stdouttrace_exporter true) (Some 1) false
                    (mkResource
                       [attribute_String "SERVICE_NAME"
                          (Get configuration "APP_NAME")])))
              ctx) /\
    forall mp : MeterProvider, ~ In (Call_SetMeterProvider mp) (out_log o).
Proof.
  intros sdk ctx configuration e Hres Htrace Hmetric.
  unfold_setup. rewrite Hres. cbn. rewrite Htrace. cbn. rewrite Hmetric. cbn.
  destruct (Shutdown sdk _ ctx); cbn;
    (repeat split; try reflexivity; intros mp H; absurd_membership).
Qed.

(** X14. Both set-up functions stop at an error of [resource.New] and
    return it: the call of [resource.New] is their last call. *)
Lemma setup_stops_at_resource_error :
  forall (x : exporter) (sdk : SDK) (ctx : Context) (configuration : Config)
         (e : error_value),
    resource_New sdk ctx
      [attribute_String "SERVICE_NAME" (Get configuration "APP_NAME")]
    = Some e ->
    let o := SetupOTelSDK x sdk ctx configuration [] in
    out_err o = Some e /\
    out_panic o = None /\
    hd_error (out_log o)
    = Some (Call_resource_New ctx
              [attribute_String "SERVICE_NAME" (Get configuration "APP_NAME")]).
Proof.
  intros x sdk ctx configuration e Hres.
  destruct x; cbn [SetupOTelSDK]; unfold_setup.
  - rewrite Hres. cbn. repeat split.
  - destruct (grpc_NewClient sdk _ _); cbn; rewrite Hres; cbn; repeat split.
Qed.

(** C1. With every library call succeeding, both set-up functions return no
    error and do not panic, and what they return as [shutdown] is nil:
    calling it panics.  Both providers have been shut down by then, by the
    deferred calls. *)
Theorem successful_setup_returns_nil_shutdown :
  forall x : exporter,
    let o := SetupOTelSDK x all_succeed background app_config [] in
    out_err o = None /\
    out_panic o = None /\
    out_shutdown o = None /\
    call all_succeed (out_shutdown o) background (out_log o)
    = (Panicking nil_func_call, out_log o) /\
    length (filter is_shutdown_call (history (out_log o))) = 2.
Proof.
  intros [|]; vm_compute; repeat split.
Qed.

(** C2. When the OTLP trace exporter cannot be created, [SetupOTelSDKGrpc]
    goes on: it creates the metric exporter and the meter provider, the
    named result [err] is overwritten with nil, and the function is left by
    the panic of the deferred call of the nil [shutdownTracerProvider]. *)
Theorem grpc_setup_goes_on_after_trace_exporter_error :
  let o := SetupOTelSDKGrpc trace_exporter_fails background app_config [] in
  history (out_log o)
  = [Call_grpc_NewClient "localhost:4317"
       [grpc_WithTransportCredentials insecure_NewCredentials];
     Call_resource_New background [attribute_String "SERVICE_NAME" "billing"];
     Call_SetTextMapPropagator newPropagator;
     Call_otlptracegrpc_New background (Some local_conn);
     Call_otlpmetricgrpc_New background (Some local_conn);
     Call_SetMeterProvider grpc_meter;
     Call_Shutdown (MeterProvider_Shutdown grpc_meter) background] /\
  out_err o = None /\
  out_panic o = Some nil_func_call.
Proof.
  vm_compute. repeat split.
Qed.

(** C3. When the OTLP metric exporter cannot be created,
    [SetupOTelSDKGrpc] defers a call of the nil [shutdownMeterProvider];
    that call panics when the function returns, the tracer provider is shut
    down by the other deferred call, and the panic leaves the function. *)
Theorem grpc_setup_panics_after_metric_exporter_error :
  let o := SetupOTelSDKGrpc metric_exporter_fails background app_config [] in
  out_panic o = Some nil_func_call /\
  out_err o
  = Some (Errorf_w "failed to create metrics exporter: %w"
            (LibError "metric exporter")) /\
  hd_error (out_log o)
  = Some (Call_Shutdown (TracerProvider_Shutdown grpc_tracer) background).
Proof.
  vm_compute. repeat split.
Qed.

(** C6. When both providers fail to shut down, the stdout set-up makes both
    deferred shutdown calls, and neither error reaches anything: the named
    result [err] is nil, nothing panics, and [shutdown], which [handleErr]
    calls for each of the two errors, has no function to call and returns
    nil. *)
Theorem shutdown_errors_are_not_joined :
  let o := SetupOTelSDKStdout shutdowns_fail background app_config [] in
  filter is_shutdown_call (history (out_log o))
  = [Call_Shutdown (MeterProvider_Shutdown stdout_meter) background;
     Call_Shutdown (TracerProvider_Shutdown stdout_tracer) background] /\
  Shutdown shutdowns_fail (MeterProvider_Shutdown stdout_meter) background
  = Some (LibError "meter flush") /\
  Shutdown shutdowns_fail (TracerProvider_Shutdown stdout_tracer) background
  = Some (LibError "tracer flush") /\
  out_err o = None /\
  out_panic o = None /\
  out_shutdown o = None /\
  shutdown shutdowns_fail background (out_log o) = (Val None, out_log o).
Proof.
  vm_compute. repeat split.
Qed.

(** ** Further properties of the set-up functions *)

(** X1. The stdout set-up returns the error of its first failing step, as
    the library gave it: that of [resource.New], else that of the trace
    exporter, else that of the metric exporter; it returns nil when all
    three succeed. *)
Theorem stdout_setup_returns_first_error :
  forall (sdk : SDK) (ctx : Context) (configuration : Config) (w : log),
    out_err (SetupOTelSDKStdout sdk ctx configuration w)
    = match resource_New sdk ctx (service_attributes configuration) with
      | Some e => Some e
      | None =>
          match stdouttrace_New sdk true with
          | Some e => Some e
          | None => stdoutmetric_New sdk
          end
      end.
Proof.
  intros sdk ctx configuration w. unfold service_attributes.
  run_setup; reflexivity.
Qed.

(** X2. The gRPC set-up panics exactly when the resource is built and one
    of the two OTLP exporters cannot be created; the panic is the call of a
    nil function. *)
Theorem grpc_setup_panics_iff_an_exporter_fails :
  forall (sdk : SDK) (ctx : Context) (configuration : Config) (w : log),
    out_panic (SetupOTelSDKGrpc sdk ctx configuration w)
    = if is_nil (resource_New sdk ctx (service_attributes configuration))
         && negb (is_nil (otlptracegrpc_New sdk ctx (conn_of sdk))
                  && is_nil (otlpmetricgrpc_New sdk ctx (conn_of sdk)))
      then Some nil_func_call
      else None.
Proof.
  intros sdk ctx configuration w. unfold service_attributes, conn_of.
  run_setup; reflexivity.
Qed.

(** X3. When the gRPC set-up returns to its caller, the error it returns is
    the answer of [resource.New]: an error of the client, of an exporter or
    of a shutdown call is never returned. *)
Theorem grpc_setup_returns_the_resource_error_only :
  forall (sdk : SDK) (ctx : Context) (configuration : Config) (w : log),
    out_panic (SetupOTelSDKGrpc sdk ctx configuration w) = None ->
    out_err (SetupOTelSDKGrpc sdk ctx configuration w)
    = resource_New sdk ctx (service_attributes configuration).
Proof.
  intros sdk ctx configuration w. unfold service_attributes.
  run_setup; intros H; try reflexivity; discriminate H.
Qed.

Lemma grpc_setup_returns_the_resource_error_only_witness :
  out_panic (SetupOTelSDKGrpc resource_fails background app_config []) = None /\
  out_err (SetupOTelSDKGrpc resource_fails background app_config [])
  = Some (LibError "resource").
Proof.
  split; [reflexivity |].
  apply (grpc_setup_returns_the_resource_error_only resource_fails background
           app_config []).
  reflexivity.
Defined.

(** X4. The stdout set-up makes the composite of trace context and baggage
    the process-wide propagator, once, when the resource is built, and sets
    no propagator otherwise. *)
Theorem stdout_setup_sets_the_composite_propagator :
  forall (sdk : SDK) (ctx : Context) (configuration : Config),
    propagators_set (calls Stdout sdk ctx configuration)
    = if is_nil (resource_New sdk ctx (service_attributes configuration))
      then [propagation_Composite
              [propagation_TraceContext; propagation_Baggage]]
      else [].
Proof.
  intros sdk ctx configuration.
  unfold calls, history, service_attributes; cbn [SetupOTelSDK].
  run_setup; reflexivity.
Qed.

(** X5. The gRPC set-up sets the same composite propagator, and when the
    trace exporter is created [initTracerProvider] replaces it with the
    trace context propagator alone, which is then the one left in place. *)
Theorem grpc_setup_replaces_the_composite_propagator :
  forall (sdk : SDK) (ctx : Context) (configuration : Config),
    propagators_set (calls Grpc sdk ctx configuration)
    = if is_nil (resource_New sdk ctx (service_attributes configuration))
      then propagation_Composite
             [propagation_TraceContext; propagation_Baggage]
           :: (if is_nil (otlptracegrpc_New sdk ctx (conn_of sdk))
               then [propagation_TraceContext]
               else [])
      else [].
Proof.
  intros sdk ctx configuration.
  unfold calls, history, service_attributes, conn_of; cbn [SetupOTelSDK].
  run_setup; reflexivity.
Qed.

(** X6. Every provider that either set-up function registers is built on
    the resource whose only attribute is the service name of the
    configuration. *)
Theorem registered_providers_carry_the_service_name :
  forall (x : exporter) (sdk : SDK) (ctx : Context) (configuration : Config),
    Forall (fun r => r = mkResource (service_attributes configuration))
           (registered_resources (calls x sdk ctx configuration)).
Proof.
  intros x sdk ctx configuration.
  unfold calls, history, service_attributes.
  destruct x; cbn [SetupOTelSDK]; run_setup; repeat constructor.
Qed.

(** X7. A provider that either set-up function registers has been shut
    down, with the caller's context, when the function is left, also when
    the function is left by a panic. *)
Theorem registered_providers_are_shut_down :
  forall (x : exporter) (sdk : SDK) (ctx : Context) (configuration : Config)
         (f : Func),
    In (registration_of f) (calls x sdk ctx configuration) ->
    In (Call_Shutdown f ctx) (calls x sdk ctx configuration).
Proof.
  intros x sdk ctx configuration f.
  unfold calls, history.
  destruct x; cbn [SetupOTelSDK]; run_setup; intros H;
    destruct f; cbn [registration_of] in H;
    repeat match goal with
           | H : _ \/ _ |- _ => destruct H
           | H : False |- _ => destruct H
           | H : _ = _ |- _ => first [discriminate H | injection H as <-]
           end;
    tauto.
Qed.

Lemma registered_providers_are_shut_down_witness :
  In (registration_of (TracerProvider_Shutdown grpc_tracer))
     (calls Grpc metric_exporter_fails background app_config) /\
  In (Call_Shutdown (TracerProvider_Shutdown grpc_tracer) background)
     (calls Grpc metric_exporter_fails background app_config).
Proof.
  assert (H : In (registration_of (TracerProvider_Shutdown grpc_tracer))
                 (calls Grpc metric_exporter_fails background app_config)).
  { vm_compute. tauto. }
  split; [exact H |].
  exact (registered_providers_are_shut_down Grpc metric_exporter_fails
           background app_config (TracerProvider_Shutdown grpc_tracer) H).
Defined.

(** X8. What the [Shutdown] methods answer changes nothing of a set-up
    call: its results, its panic and its calls are the same under any other
    answers. *)
Theorem setup_ignores_shutdown_answers :
  forall (x : exporter) (sdk : SDK) (answers : Func -> Context -> error)
         (ctx : Context) (configuration : Config) (w : log),
    SetupOTelSDK x (with_Shutdown sdk answers) ctx configuration w
    = SetupOTelSDK x sdk ctx configuration w.
Proof.
  intros x sdk answers ctx configuration w.
  destruct x; cbn [SetupOTelSDK]; run_setup; reflexivity.
Qed.

(** X9. When the gRPC client cannot be created and the resource is built,
    the gRPC set-up goes on with a nil connection: both OTLP exporters are
    asked for with it, and the error of [initConn] is not the one
    returned. *)
Theorem grpc_setup_goes_on_without_connection :
  forall (sdk : SDK) (ctx : Context) (configuration : Config)
         (e : error_value),
    grpc_NewClient sdk "localhost:4317"
      [grpc_WithTransportCredentials insecure_NewCredentials] = Some e ->
    resource_New sdk ctx (service_attributes configuration) = None ->
    In (Call_otlptracegrpc_New ctx None) (calls Grpc sdk ctx configuration) /\
    In (Call_otlpmetricgrpc_New ctx None) (calls Grpc sdk ctx configuration) /\
    out_err (SetupOTelSDKGrpc sdk ctx configuration [])
    <> fmt_Errorf "failed to create gRPC connection to collector: %w" e.
Proof.
  intros sdk ctx configuration e Hconn Hres.
  unfold calls, history, service_attributes in *; cbn [SetupOTelSDK].
  unfold_setup. rewrite Hconn. cbn. rewrite Hres. cbn.
  repeat library_answer;
    (split; [tauto | split; [tauto | unfold fmt_Errorf; congruence]]).
Qed.

Lemma grpc_setup_goes_on_without_connection_witness :
  grpc_NewClient connection_fails "localhost:4317"
    [grpc_WithTransportCredentials insecure_NewCredentials]
  = Some (LibError "dial") /\
  resource_New connection_fails background (service_attributes app_config)
  = None /\
  In (Call_otlptracegrpc_New background None)
     (calls Grpc connection_fails background app_config) /\
  In (Call_otlpmetricgrpc_New background None)
     (calls Grpc connection_fails background app_config) /\
  out_err (SetupOTelSDKGrpc connection_fails background app_config [])
  <> fmt_Errorf "failed to create gRPC connection to collector: %w"
       (LibError "dial").
Proof.
  split; [reflexivity | split; [reflexivity |]].
  apply (grpc_setup_goes_on_without_connection connection_fails background
           app_config (e := LibError "dial")); reflexivity.
Defined.

(** X10. Each constructor of the package returns without a panic, with
    either a handle and a nil error or a nil handle and an error, never
    both and never neither. *)
Theorem constructors_return_handle_xor_error :
  forall (sdk : SDK) (ctx : Context) (res : option Resource)
         (conn : option ClientConn) (w : log),
    handle_xor_error (fst (initConn sdk w)) = true /\
    handle_xor_error (fst (initTracerProvider sdk ctx res conn w)) = true /\
    handle_xor_error (fst (initMeterProvider sdk ctx res conn w)) = true /\
    handle_xor_error (fst (newTraceProvider sdk res w)) = true /\
    handle_xor_error (fst (newMeterProvider sdk res w)) = true.
Proof.
  intros sdk ctx res conn w.
  unfold initConn, initTracerProvider, initMeterProvider, newTraceProvider,
    newMeterProvider; cbn.
  repeat split.
  - destruct (grpc_NewClient sdk _ _); reflexivity.
  - destruct (otlptracegrpc_New sdk ctx conn); reflexivity.
  - destruct (otlpmetricgrpc_New sdk ctx conn); reflexivity.
  - destruct (stdouttrace_New sdk true); reflexivity.
  - destruct (stdoutmetric_New sdk); reflexivity.
Qed.

(** Runs of the stdout set-up and of both set-ups that stop at an error. *)
Lemma stdout_setup_stops_at_trace_exporter_error_witness :
  resource_New stdout_trace_exporter_fails background
    [attribute_String "SERVICE_NAME" (Get app_config "APP_NAME")] = None /\
  stdouttrace_New stdout_trace_exporter_fails true
  = Some (LibError "stdout trace exporter") /\
  SetupOTelSDKStdout stdout_trace_exporter_fails background app_config []
  = mkOutcome None (Some (LibError "stdout trace exporter")) None
      [Call_stdouttrace_New true;
       Call_SetTextMapPropagator newPropagator;
       Call_resource_New background
         [attribute_String "SERVICE_NAME" "billing"]].
Proof.
  split; [reflexivity | split; [reflexivity |]].
  apply (stdout_setup_stops_at_trace_exporter_error
           stdout_trace_exporter_fails background app_config
           (e := LibError "stdout trace exporter")); reflexivity.
Defined.

Lemma stdout_setup_stops_at_metric_exporter_error_witness :
  let o :=
    SetupOTelSDKStdout stdout_metric_exporter_fails background app_config [] in
  resource_New stdout_metric_exporter_fails background
    [attribute_String "SERVICE_NAME" (Get app_config "APP_NAME")] = None /\
  stdouttrace_New stdout_metric_exporter_fails true = None /\
  stdoutmetric_New stdout_metric_exporter_fails
  = Some (LibError "stdout metric exporter") /\
  out_err o = Some (LibError "stdout metric exporter") /\
  out_panic o = None /\
  resources_built (history (out_log o))
  = [[attribute_String "SERVICE_NAME" "billing"]] /\
  hd_error (out_log o)
  = Some (Call_Shutdown (TracerProvider_Shutdown stdout_tracer) background) /\
  forall mp : MeterProvider, ~ In (Call_SetMeterProvider mp) (out_log o).
Proof.
  intros o.
  split; [reflexivity | split; [reflexivity | split; [reflexivity |]]].
  apply (stdout_setup_stops_at_metric_exporter_error
           stdout_metric_exporter_fails background app_config
           (e := LibError "stdout metric exporter")); reflexivity.
Defined.

Lemma setup_stops_at_resource_error_witness :
  let o := SetupOTelSDK Grpc resource_fails background app_config [] in
  resource_New resource_fails background
    [attribute_String "SERVICE_NAME" (Get app_config "APP_NAME")]
  = Some (LibError "resource") /\
  out_err o = Some (LibError "resource") /\
  out_panic o = None /\
  hd_error (out_log o)
  = Some (Call_resource_New background
            [attribute_String "SERVICE_NAME" "billing"]).
Proof.
  intros o.
  split; [reflexivity |].
  apply (setup_stops_at_resource_error Grpc resource_fails background
           app_config (e := LibError "resource")); reflexivity.
Defined.
